(** * Basket construction and frequent-itemset mining of the VAERS pipeline

    Shallow embedding of [src/proj_code_pkg/freq_itemsets.py],
    [src/proj_code_pkg/vaers_csv.py] and [src/cloud_function/main.py].

    Python values as the code sees them:
    - a float column ([AGE_YRS], read with dtype float) is a rational number
      or NaN; every comparison with NaN is [False];
    - a string column ([STATE], [SEX], the Y/N flags, [VAX_NAME],
      [SYMPTOM1..5]) holds a [str] or the missing marker (NaN / pd.NA);
      [option string] with [None] for the missing marker;
    - the result of [convert_to_labeled_item] is a label or [pd.NA], again an
      [option string]. *)

From Stdlib Require Import PeanoNat String List QArith Bool Lia Lqa Permutation Sorted.
Import ListNotations.
Open Scope string_scope.

(** ** Python scalars *)

Inductive pyfloat : Type :=
| PNum (q : Q)
| PNaN.

(** [x < c] on a Python float: false whenever [x] is NaN. *)
Definition py_lt (x : pyfloat) (c : Q) : bool :=
  match x with
  | PNum q => negb (Qle_bool c q)
  | PNaN => false
  end.

(** A string cell of a dataframe: [None] is the missing marker. *)
Definition pystr := option string.

(** [a == b] between a cell and a string literal: NaN equals nothing. *)
Definition py_str_eq (x : pystr) (lit : string) : bool :=
  match x with
  | Some s => String.eqb s lit
  | None => false
  end.

(** The string columns of a merged VAERS row that the basket builder reads,
    plus [OFC_VISIT] and [ER_ED_VISIT], the two Y/N flag columns of
    VAERSDATA it does not read. *)
Inductive column : Type :=
| STATE | SEX
| DIED | L_THREAT | ER_VISIT | HOSPITAL | X_STAY | DISABLE | RECOVD | BIRTH_DEFECT
| OFC_VISIT | ER_ED_VISIT
| VAX_NAME | SYMPTOM1 | SYMPTOM2 | SYMPTOM3 | SYMPTOM4 | SYMPTOM5.

Definition column_eq_dec (c1 c2 : column) : {c1 = c2} + {c1 <> c2}.
Proof. decide equality. Defined.

(** A merged row ([pd.Series]): the float column [AGE_YRS] and the string
    columns, looked up by label as [data_row['...']]. *)
Record row : Type := mk_row {
  AGE_YRS : pyfloat;
  cell : column -> pystr
}.

(** The row with the string column [c] set to [v]. *)
Definition set_cell (r : row) (c : column) (v : pystr) : row :=
  mk_row (AGE_YRS r) (fun c' => if column_eq_dec c' c then v else cell r c').

(** The row with [AGE_YRS] set to [v]. *)
Definition set_age (r : row) (v : pyfloat) : row := mk_row v (cell r).

(** ** [src/proj_code_pkg/freq_itemsets.py] *)

Module FreqItemsets.

(** [append_if_not_na(list, obj)]: [list.append(obj)] unless [pd.isna(obj)].
    The list is threaded explicitly. *)
Definition append_if_not_na (l : list string) (obj : pystr) : list string :=
  match obj with
  | Some s => l ++ [s]
  | None => l
  end.

Definition convert_to_age_group (age : pyfloat) : string :=
  if py_lt age 3 then "Age 0-2"
  else if py_lt age 6 then "Age 3-5"
  else if py_lt age 14 then "Age 6-13"
  else if py_lt age 19 then "Age 14-18"
  else if py_lt age 34 then "Age 19-33"
  else if py_lt age 49 then "Age 34-48"
  else if py_lt age 65 then "Age 49-64"
  else if py_lt age 79 then "Age 65-78"
  else "Age 79-older".

Definition convert_to_sex_group (sex : pystr) : string :=
  if py_str_eq sex "F" then "Female"
  else if py_str_eq sex "M" then "Male"
  else "Unknown Sex".

(** [label if not pd.isna(data) and data == 'Y' else pd.NA] *)
Definition convert_to_labeled_item (data : pystr) (label : string) : pystr :=
  match data with
  | Some d => if String.eqb d "Y" then Some label else None
  | None => None
  end.

Definition build_basket (data_row : row) : list string :=
  let basket := [] in
  let basket := append_if_not_na basket (cell data_row STATE) in
  let basket := append_if_not_na basket (Some (convert_to_age_group (AGE_YRS data_row))) in
  let basket := append_if_not_na basket (Some (convert_to_sex_group (cell data_row SEX))) in
  let basket := append_if_not_na basket (convert_to_labeled_item (cell data_row DIED) "Died") in
  let basket := append_if_not_na basket (convert_to_labeled_item (cell data_row L_THREAT) "Life-threatening illness") in
  let basket := append_if_not_na basket (convert_to_labeled_item (cell data_row ER_VISIT) "Emergency room visit") in
  let basket := append_if_not_na basket (convert_to_labeled_item (cell data_row HOSPITAL) "Hospitalized ") in
  let basket := append_if_not_na basket (convert_to_labeled_item (cell data_row X_STAY) "Prolongation of existing hospitalization") in
  let basket := append_if_not_na basket (convert_to_labeled_item (cell data_row DISABLE) "Disability") in
  let basket := append_if_not_na basket (convert_to_labeled_item (cell data_row RECOVD) "Recovered") in
  let basket := append_if_not_na basket (convert_to_labeled_item (cell data_row BIRTH_DEFECT) "Birth defect") in
  let basket := append_if_not_na basket (cell data_row VAX_NAME) in
  let basket := append_if_not_na basket (cell data_row SYMPTOM1) in
  let basket := append_if_not_na basket (cell data_row SYMPTOM2) in
  let basket := append_if_not_na basket (cell data_row SYMPTOM3) in
  let basket := append_if_not_na basket (cell data_row SYMPTOM4) in
  let basket := append_if_not_na basket (cell data_row SYMPTOM5) in
  basket.

End FreqItemsets.

(** ** [src/cloud_function/main.py]: the second copy of the basket builder *)

Module CloudMain.

Definition append_if_not_na (l : list string) (obj : pystr) : list string :=
  match obj with
  | Some s => l ++ [s]
  | None => l
  end.

Definition convert_to_age_group (age : pyfloat) : string :=
  if py_lt age 3 then "Age 0-2"
  else if py_lt age 6 then "Age 3-5"
  else if py_lt age 14 then "Age 6-13"
  else if py_lt age 19 then "Age 14-18"
  else if py_lt age 34 then "Age 19-33"
  else if py_lt age 49 then "Age 34-48"
  else if py_lt age 65 then "Age 49-64"
  else if py_lt age 79 then "Age 65-78"
  else "Age 79-older".

Definition convert_to_sex_group (sex : pystr) : string :=
  if py_str_eq sex "F" then "Female"
  else if py_str_eq sex "M" then "Male"
  else "Unknown Sex".

Definition convert_to_labeled_item (data : pystr) (label : string) : pystr :=
  match data with
  | Some d => if String.eqb d "Y" then Some label else None
  | None => None
  end.

Definition build_basket (data_row : row) : list string :=
  let basket := [] in
  let basket := append_if_not_na basket (cell data_row STATE) in
  let basket := append_if_not_na basket (Some (convert_to_age_group (AGE_YRS data_row))) in
  let basket := append_if_not_na basket (Some (convert_to_sex_group (cell data_row SEX))) in
  let basket := append_if_not_na basket (convert_to_labeled_item (cell data_row DIED) "Died") in
  let basket := append_if_not_na basket (convert_to_labeled_item (cell data_row L_THREAT) "Life-threatening illness") in
  let basket := append_if_not_na basket (convert_to_labeled_item (cell data_row ER_VISIT) "Emergency room visit") in
  let basket := append_if_not_na basket (convert_to_labeled_item (cell data_row HOSPITAL) "Hospitalized ") in
  let basket := append_if_not_na basket (convert_to_labeled_item (cell data_row X_STAY) "Prolongation of existing hospitalization") in
  let basket := append_if_not_na basket (convert_to_labeled_item (cell data_row DISABLE) "Disability") in
  let basket := append_if_not_na basket (convert_to_labeled_item (cell data_row RECOVD) "Recovered") in
  let basket := append_if_not_na basket (convert_to_labeled_item (cell data_row BIRTH_DEFECT) "Birth defect") in
  let basket := append_if_not_na basket (cell data_row VAX_NAME) in
  let basket := append_if_not_na basket (cell data_row SYMPTOM1) in
  let basket := append_if_not_na basket (cell data_row SYMPTOM2) in
  let basket := append_if_not_na basket (cell data_row SYMPTOM3) in
  let basket := append_if_not_na basket (cell data_row SYMPTOM4) in
  let basket := append_if_not_na basket (cell data_row SYMPTOM5) in
  basket.

End CloudMain.

(** ** Per-field view of a basket *)

(** The source field a basket token is derived from. *)
Inductive field : Type :=
| FAge
| FCol (c : column).

(** The source value of a field is missing (NaN / pd.NA). *)
Definition field_missing (r : row) (f : field) : Prop :=
  match f with
  | FAge => AGE_YRS r = PNaN
  | FCol c => cell r c = None
  end.

Definition opt_list (o : pystr) : list string :=
  match o with Some s => [s] | None => [] end.

(** The tokens each field contributes to [build_basket], in the order of the
    calls of [append_if_not_na] (see [build_basket_fields]). *)
Definition basket_fields (r : row) : list (field * list string) :=
  let lab c l := (FCol c, opt_list (FreqItemsets.convert_to_labeled_item (cell r c) l)) in
  [ (FCol STATE, opt_list (cell r STATE));
    (FAge, [FreqItemsets.convert_to_age_group (AGE_YRS r)]);
    (FCol SEX, [FreqItemsets.convert_to_sex_group (cell r SEX)]);
    lab DIED "Died";
    lab L_THREAT "Life-threatening illness";
    lab ER_VISIT "Emergency room visit";
    lab HOSPITAL "Hospitalized ";
    lab X_STAY "Prolongation of existing hospitalization";
    lab DISABLE "Disability";
    lab RECOVD "Recovered";
    lab BIRTH_DEFECT "Birth defect";
    (FCol VAX_NAME, opt_list (cell r VAX_NAME));
    (FCol SYMPTOM1, opt_list (cell r SYMPTOM1));
    (FCol SYMPTOM2, opt_list (cell r SYMPTOM2));
    (FCol SYMPTOM3, opt_list (cell r SYMPTOM3));
    (FCol SYMPTOM4, opt_list (cell r SYMPTOM4));
    (FCol SYMPTOM5, opt_list (cell r SYMPTOM5)) ].

(** The Y/N flag columns [build_basket] reads, with the label it emits. *)
Definition flag_fields : list (column * string) :=
  [ (DIED, "Died");
    (L_THREAT, "Life-threatening illness");
    (ER_VISIT, "Emergency room visit");
    (HOSPITAL, "Hospitalized ");
    (X_STAY, "Prolongation of existing hospitalization");
    (DISABLE, "Disability");
    (RECOVD, "Recovered");
    (BIRTH_DEFECT, "Birth defect") ].

(** A row in which every string column is missing and the age is [age]. *)
Definition row_all_missing (age : pyfloat) : row := mk_row age (fun _ => None).

(** A row in which every Y/N flag column of VAERSDATA (the eight read by the
    builder and [OFC_VISIT], [ER_ED_VISIT]) is ["Y"], the age is 30, and the
    other string columns are missing. *)
Definition row_all_flags_Y : row :=
  mk_row (PNum 30) (fun c =>
    match c with
    | DIED | L_THREAT | ER_VISIT | HOSPITAL | X_STAY | DISABLE | RECOVD
    | BIRTH_DEFECT | OFC_VISIT | ER_ED_VISIT => Some "Y"
    | _ => None
    end).

(** ** Age bins *)

(** A bin: lower bound (inclusive), upper bound (exclusive, [None] for
    unbounded) and the label [convert_to_age_group] returns for it. *)
Definition age_bin : Type := (Q * option Q * string)%type.

Definition age_bins : list age_bin :=
  [ (0, Some 3, "Age 0-2");
    (3, Some 6, "Age 3-5");
    (6, Some 14, "Age 6-13");
    (14, Some 19, "Age 14-18");
    (19, Some 34, "Age 19-33");
    (34, Some 49, "Age 34-48");
    (49, Some 65, "Age 49-64");
    (65, Some 79, "Age 65-78");
    (79, None, "Age 79-older") ].

Definition in_bin (a : Q) (b : age_bin) : Prop :=
  let '(lo, hi, _) := b in
  lo <= a /\ match hi with Some h => a < h | None => True end.

Definition bin_label (b : age_bin) : string := let '(_, _, l) := b in l.

(** The bins start at [lo], each one starts where the previous one ends, and
    only the last one is unbounded. *)
Fixpoint contiguous_from (lo : Q) (bs : list age_bin) : bool :=
  match bs with
  | [] => false
  | [(l, None, _)] => Qeq_bool l lo
  | (l, Some h, _) :: bs' => Qeq_bool l lo && contiguous_from h bs'
  | _ => false
  end.

(** The range names of the spec's age table, in the order of [age_bins]. *)
Definition spec_age_labels : list string :=
  ["0-2"; "3-5"; "6-13"; "14-18"; "19-33"; "34-48"; "49-64"; "65-78"; "79+"].

(** ** Join stage: [read_vaers_csv] and [merge_dataframes]
    ([src/proj_code_pkg/vaers_csv.py], copied verbatim in
    [src/cloud_function/main.py]) *)

(** A parsed CSV cell. *)
Inductive value : Type :=
| VInt (z : Z)
| VStr (s : pystr)
| VFloat (f : pyfloat).

Definition value_eq_dec (v1 v2 : value) : {v1 = v2} + {v1 <> v2}.
Proof.
  decide equality;
    try apply Z.eq_dec;
    try (decide equality; apply string_dec);
    try (decide equality; decide equality; first [apply Z.eq_dec | apply Pos.eq_dec]).
Defined.

Definition value_eqb (v1 v2 : value) : bool :=
  if value_eq_dec v1 v2 then true else false.

(** A CSV file as [pd.read_csv] returns it: a header and the rows. *)
Record csv : Type := mk_csv {
  header : list string;
  records : list (list value)
}.

(** A dataframe with an index: its columns and its rows, each an index label
    and the cells of the columns. *)
Record frame : Type := mk_frame {
  columns : list string;
  rows : list (value * list value)
}.

Definition index (df : frame) : list value := map fst (rows df).

Fixpoint find_pos (x : string) (l : list string) : option nat :=
  match l with
  | [] => None
  | y :: l' =>
      if String.eqb x y then Some 0%nat
      else match find_pos x l' with Some n => Some (S n) | None => None end
  end.

Fixpoint remove_nth {A} (n : nat) (l : list A) : list A :=
  match n, l with
  | _, [] => []
  | O, _ :: l' => l'
  | S n', x :: l' => x :: remove_nth n' l'
  end.

(** [df.set_index(key)]: [KeyError] ([None]) when the column is absent;
    otherwise the column becomes the index, duplicates kept. *)
Definition set_index (key : string) (t : csv) : option frame :=
  match find_pos key (header t) with
  | None => None
  | Some i =>
      Some (mk_frame (remove_nth i (header t))
              (map (fun r => (nth i r (VStr None), remove_nth i r)) (records t)))
  end.

(** [pd.read_csv(...).set_index('VAERS_ID')], after parsing. *)
Definition read_vaers_csv (t : csv) : option frame := set_index "VAERS_ID" t.

(** [pd.merge(x, y, left_index=True, right_index=True, sort=False)]: the
    default [how='inner'] join on the index labels; a label occurring [m]
    times on the left and [n] times on the right yields [m * n] rows.
    (pandas suffixes overlapping column names and may order rows
    differently; neither is modelled.) *)
Definition merge (x y : frame) : frame :=
  mk_frame (app (columns x) (columns y))
    (flat_map (fun kl =>
       map (fun kr => (fst kl, app (snd kl) (snd kr)))
           (filter (fun kr => value_eqb (fst kl) (fst kr)) (rows y)))
     (rows x)).

(** [functools.reduce(merge, dataframes)]: [TypeError] ([None]) on an empty
    list, no initial value. *)
Definition merge_dataframes (dataframes : list frame) : option frame :=
  match dataframes with
  | [] => None
  | d :: ds => Some (fold_left merge ds d)
  end.

(** A one-column indexed table with the given index labels. *)
Definition keyed_table (col : string) (keys : list Z) : frame :=
  mk_frame [col] (map (fun k => (VInt k, [VStr (Some col)])) keys).

(** ** One-hot encoding: [build_one_hot_basket_dataset]
    ([src/proj_code_pkg/freq_itemsets.py]) over mlxtend's
    [TransactionEncoder]: [fit] sets [columns_] to the sorted distinct items
    of all baskets, [transform] marks cell [(i, j)] when [columns_[j]] occurs
    in basket [i]. *)

Fixpoint insert_sorted (x : string) (l : list string) : list string :=
  match l with
  | [] => [x]
  | y :: l' => if String.leb x y then x :: l else y :: insert_sorted x l'
  end.

(** Python's [sorted] on a list of strings. *)
Fixpoint sort_strings (l : list string) : list string :=
  match l with
  | [] => []
  | x :: l' => insert_sorted x (sort_strings l')
  end.

(** [TransactionEncoder().fit(baskets).columns_] = [sorted(set(items))]. *)
Definition te_columns (baskets : list (list string)) : list string :=
  sort_strings (nodup string_dec (concat baskets)).

(** [te.transform(baskets)], dense: one bool per column of [columns_]. *)
Definition te_transform (cols : list string) (baskets : list (list string))
  : list (list bool) :=
  map (fun b => map (fun c => existsb (String.eqb c) b) cols) baskets.

(** A boolean dataframe: column labels and rows of cells. *)
Record bool_frame : Type := mk_bool_frame {
  bcolumns : list string;
  brows : list (list bool)
}.

Definition build_one_hot_basket_dataset (baskets : list (list string)) : bool_frame :=
  let cols := te_columns baskets in
  mk_bool_frame cols (te_transform cols baskets).

(** Reading a matrix row back: the columns whose cell is [True]. *)
Definition decode_row (cols : list string) (r : list bool) : list string :=
  map fst (filter snd (combine cols r)).

(** ** Frequent itemsets: [mlxtend.frequent_patterns.fpgrowth] as called by
    [main] ([src/cloud_function/main.py]). The FP-tree search itself is not
    modelled, only its result: [ValueError] when [min_support] is outside
    [(0, 1]] ([min_support <= 0] or [min_support > 1]), and
    otherwise every non-empty set of columns whose support, the fraction of
    rows having all its columns [True], is at least [min_support], tagged
    with that support. *)

(** All subsets of a list of distinct columns, as subsequences. *)
Fixpoint subsequences {A} (l : list A) : list (list A) :=
  match l with
  | [] => [[]]
  | x :: l' => let s := subsequences l' in map (cons x) s ++ s
  end.

(** The cell of column [c] in row [r] of a frame with columns [cols]. *)
Definition row_has (cols : list string) (r : list bool) (c : string) : bool :=
  existsb (fun cv => String.eqb c (fst cv) && snd cv) (combine cols r).

(** Number of rows containing every item of [s]. *)
Definition support_count (df : bool_frame) (s : list string) : nat :=
  length (filter (fun r => forallb (row_has (bcolumns df) r) s) (brows df)).

Definition support (df : bool_frame) (s : list string) : Q :=
  inject_Z (Z.of_nat (support_count df s)) / inject_Z (Z.of_nat (length (brows df))).

Definition fpgrowth (df : bool_frame) (min_support : Q)
  : option (list (Q * list string)) :=
  if Qle_bool min_support 0 || negb (Qle_bool min_support 1) then None
  else Some (map (fun s => (support df s, s))
               (filter (fun s => negb (match s with [] => true | _ => false end)
                                 && Qle_bool min_support (support df s))
                       (subsequences (bcolumns df)))).

(** The baskets of the spec's mining example. *)
Definition example_baskets : list (list string) :=
  [["CA"; "Female"; "Died"]; ["CA"; "Male"]; ["CA"; "Female"; "Died"]].

(** Position of an age-group label in the order of the bins (9 for any
    other string). *)
Definition age_group_rank (label : string) : nat :=
  match find_pos label (map bin_label age_bins) with
  | Some i => i
  | None => 9%nat
  end.

(** * Proofs *)

(** ** Basket builder *)

Lemma append_if_not_na_spec (l : list string) (o : pystr) :
  FreqItemsets.append_if_not_na l o = (l ++ opt_list o)%list.
Proof. destruct o; simpl; [reflexivity | rewrite app_nil_r; reflexivity]. Qed.

(** [build_basket] is the concatenation of the per-field contributions. *)
Lemma build_basket_fields (r : row) :
  FreqItemsets.build_basket r = concat (map snd (basket_fields r)).
Proof.
  unfold FreqItemsets.build_basket, basket_fields.
  rewrite !append_if_not_na_spec. cbn [map snd concat].
  rewrite !app_nil_r, <- !app_assoc. reflexivity.
Qed.

Lemma concat_split {A} (L : list (list A)) (k : nat) :
  (k < length L)%nat ->
  concat L = (concat (firstn k L) ++ nth k L [] ++ concat (skipn (S k) L))%list.
Proof.
  revert L; induction k as [|k IH]; intros [|x L] H; simpl in *; try lia.
  - reflexivity.
  - rewrite (IH L) by lia. rewrite app_assoc. reflexivity.
Qed.

Lemma labeled_item_opt_list (v : pystr) (l : string) :
  opt_list (FreqItemsets.convert_to_labeled_item v l)
  = if py_str_eq v "Y" then [l] else [].
Proof. destruct v as [s|]; simpl; [destruct (String.eqb s "Y") |]; reflexivity. Qed.

(** Every field other than the age and the sex contributes nothing when its
    source value is missing. *)
Lemma basket_fields_missing_dropped (r : row) (f : field) (toks : list string) :
  In (f, toks) (basket_fields r) -> field_missing r f ->
  f <> FAge -> f <> FCol SEX -> toks = [].
Proof.
  intros Hin Hm Ha Hs. simpl in Hin.
  repeat (destruct Hin as [Hin | Hin];
          [injection Hin as <- <-; simpl in Hm; rewrite ?Hm;
           (reflexivity || congruence) | ]).
  destruct Hin.
Qed.

(** Splitting the basket around the contribution of the [k]-th field. *)
Ltac split_basket r k :=
  exists (concat (firstn k (map snd (basket_fields r)))),
         (concat (skipn (S k) (map snd (basket_fields r))));
  intro v;
  rewrite build_basket_fields, (concat_split _ k) by (simpl; lia).

(** ** Age bins *)

Lemma py_lt_num_false (a c : Q) : py_lt (PNum a) c = false <-> c <= a.
Proof.
  simpl. rewrite <- Qle_bool_iff. destruct (Qle_bool c a); simpl; split; congruence.
Qed.

Lemma py_lt_num_true (a c : Q) : py_lt (PNum a) c = true <-> a < c.
Proof.
  simpl. destruct (Qle_bool c a) eqn:E; simpl.
  - apply Qle_bool_iff in E. split; [discriminate | intro; lra].
  - split; [intros _ | reflexivity].
    apply Qnot_le_lt. rewrite <- Qle_bool_iff. congruence.
Qed.

(** The label of the bin containing [a]. *)
Lemma convert_to_age_group_in_bin (a : Q) (b : age_bin) :
  In b age_bins -> in_bin a b ->
  FreqItemsets.convert_to_age_group (PNum a) = bin_label b.
Proof.
  intros Hb Hin. unfold FreqItemsets.convert_to_age_group.
  simpl in Hb.
  repeat (destruct Hb as [<- | Hb];
          [simpl in Hin; destruct Hin as [Hlo Hhi];
           repeat (match goal with
                   | |- context [py_lt (PNum a) ?c] =>
                       let E := fresh "E" in
                       destruct (py_lt (PNum a) c) eqn:E;
                       [apply py_lt_num_true in E | apply py_lt_num_false in E]
                   end;
                   try (exfalso; lra));
           reflexivity | ]).
  destruct Hb.
Qed.

Lemma age_bin_exists (a : Q) : 0 <= a -> exists b, In b age_bins /\ in_bin a b.
Proof.
  intro H0.
  destruct (Qlt_le_dec a 3); [exists (0, Some 3, "Age 0-2"); simpl; split; [tauto | lra] |].
  destruct (Qlt_le_dec a 6); [exists (3, Some 6, "Age 3-5"); simpl; split; [tauto | lra] |].
  destruct (Qlt_le_dec a 14); [exists (6, Some 14, "Age 6-13"); simpl; split; [tauto | lra] |].
  destruct (Qlt_le_dec a 19); [exists (14, Some 19, "Age 14-18"); simpl; split; [tauto | lra] |].
  destruct (Qlt_le_dec a 34); [exists (19, Some 34, "Age 19-33"); simpl; split; [tauto | lra] |].
  destruct (Qlt_le_dec a 49); [exists (34, Some 49, "Age 34-48"); simpl; split; [tauto | lra] |].
  destruct (Qlt_le_dec a 65); [exists (49, Some 65, "Age 49-64"); simpl; split; [tauto | lra] |].
  destruct (Qlt_le_dec a 79); [exists (65, Some 79, "Age 65-78"); simpl; split; [tauto | lra] |].
  exists (79, None, "Age 79-older"); simpl; split; [tauto | split; [lra | exact I]].
Qed.

Lemma age_bin_unique (a : Q) (b b' : age_bin) :
  In b age_bins -> In b' age_bins -> in_bin a b -> in_bin a b' -> b' = b.
Proof.
  intros Hb Hb' H H'. simpl in Hb, Hb'.
  repeat (destruct Hb as [<- | Hb]; [| ]); try destruct Hb;
  repeat (destruct Hb' as [<- | Hb']; [| ]); try destruct Hb';
  simpl in H, H'; try reflexivity; exfalso; lra.
Qed.

(** ** Claims on the basket builder *)

(** C1 (code_bug). With [AGE_YRS] missing (NaN) the age token is not
    omitted: every comparison in [convert_to_age_group] is false on NaN, so
    it returns ["Age 79-older"], a string, which [append_if_not_na] keeps.
    On the row whose cells are all missing the basket is
    [["Age 79-older"; "Unknown Sex"]]. *)
Theorem build_basket_missing_age_gives_79_older :
  field_missing (row_all_missing PNaN) FAge /\
  In (FAge, ["Age 79-older"]) (basket_fields (row_all_missing PNaN)) /\
  FreqItemsets.build_basket (row_all_missing PNaN) = ["Age 79-older"; "Unknown Sex"].
Proof. split; [reflexivity | split; [simpl; tauto | reflexivity]]. Qed.

(** C2 (counterexample). The labels [convert_to_age_group] returns are not
    the range names of the spec's table: at age 0 it returns ["Age 0-2"],
    which is none of ["0-2"], ..., ["79+"], and at age 80 it returns
    ["Age 79-older"], not ["79+"]. *)
Lemma convert_to_age_group_labels_not_spec_names :
  ~ In (FreqItemsets.convert_to_age_group (PNum 0)) spec_age_labels /\
  FreqItemsets.convert_to_age_group (PNum 80) <> "79+".
Proof. split; simpl; [intuition discriminate | discriminate]. Qed.

(** C2 (amended). The nine bins [0,3), [3,6), [6,14), [14,19), [19,34),
    [34,49), [49,65), [65,79), [79,oo) are contiguous from 0 and the last
    is unbounded; every age [a >= 0] lies in exactly one of them (so each
    boundary belongs to the upper bin), and [convert_to_age_group] returns
    that bin's label: ["Age 0-2"], ["Age 3-5"], ["Age 6-13"], ["Age 14-18"],
    ["Age 19-33"], ["Age 34-48"], ["Age 49-64"], ["Age 65-78"],
    ["Age 79-older"]. *)
Theorem convert_to_age_group_partition :
  length age_bins = 9%nat /\
  contiguous_from 0 age_bins = true /\
  map bin_label age_bins =
    ["Age 0-2"; "Age 3-5"; "Age 6-13"; "Age 14-18"; "Age 19-33";
     "Age 34-48"; "Age 49-64"; "Age 65-78"; "Age 79-older"] /\
  forall a : Q, 0 <= a ->
    exists b, In b age_bins /\ in_bin a b /\
      FreqItemsets.convert_to_age_group (PNum a) = bin_label b /\
      forall b', In b' age_bins -> in_bin a b' -> b' = b.
Proof.
  split; [reflexivity | split; [reflexivity | split; [reflexivity |]]].
  intros a Ha. destruct (age_bin_exists a Ha) as [b [Hb Hin]].
  exists b. split; [exact Hb | split; [exact Hin | split]].
  - apply convert_to_age_group_in_bin; assumption.
  - intros b' Hb' Hin'. apply (age_bin_unique a b b'); assumption.
Qed.

(** C3. The sex field always contributes exactly one token: ["F"] gives
    ["Female"], ["M"] gives ["Male"], every other value and the missing
    value give ["Unknown Sex"]; and whatever the [SEX] cell holds, the
    basket is [pre ++ convert_to_sex_group s :: post] with [pre] and [post]
    fixed by the other cells. *)
Theorem build_basket_sex_exactly_one_token :
  FreqItemsets.convert_to_sex_group (Some "F") = "Female" /\
  FreqItemsets.convert_to_sex_group (Some "M") = "Male" /\
  (forall s : pystr,
     FreqItemsets.convert_to_sex_group s = "Unknown Sex" <-> s <> Some "F" /\ s <> Some "M") /\
  forall r : row, exists pre post, forall v : pystr,
    FreqItemsets.build_basket (set_cell r SEX v)
    = (pre ++ FreqItemsets.convert_to_sex_group v :: post)%list.
Proof.
  split; [reflexivity | split; [reflexivity | split]].
  - intros [s|]; unfold FreqItemsets.convert_to_sex_group; simpl.
    + destruct (String.eqb_spec s "F") as [->|HF]; [split; [discriminate | intros [H _]; congruence] |].
      destruct (String.eqb_spec s "M") as [->|HM]; [split; [discriminate | intros [_ H]; congruence] |].
      split; [intros _; split; congruence | reflexivity].
    + split; [intros _; split; discriminate | reflexivity].
  - intro r. split_basket r 2%nat. reflexivity.
Qed.

(** C4 (counterexample). Even with all ten Y/N flag columns of VAERSDATA
    set to ["Y"] (the eight the builder reads, [OFC_VISIT] and
    [ER_ED_VISIT]), the basket holds the age and sex tokens and exactly eight
    flag labels: the builder reads eight flag fields, not nine. *)
Lemma build_basket_eight_flag_labels :
  cell row_all_flags_Y OFC_VISIT = Some "Y" /\
  cell row_all_flags_Y ER_ED_VISIT = Some "Y" /\
  FreqItemsets.build_basket row_all_flags_Y
  = "Age 19-33" :: "Unknown Sex" :: map snd flag_fields /\
  length (map snd flag_fields) = 8%nat.
Proof. repeat split; reflexivity. Qed.

(** C4 (amended). For each of the eight flag fields the builder reads
    ([DIED], [L_THREAT], [ER_VISIT], [HOSPITAL], [X_STAY], [DISABLE],
    [RECOVD], [BIRTH_DEFECT]) the basket is [pre ++ t ++ post], with [pre]
    and [post] fixed by the other cells and [t] the field's label when the
    raw value is ["Y"] and nothing for any other value, missing included.
    [OFC_VISIT] and [ER_ED_VISIT] never change the basket. *)
Theorem build_basket_flag_label_iff_Y :
  length flag_fields = 8%nat /\
  Forall (fun cl =>
    forall r : row, exists pre post, forall v : pystr,
      FreqItemsets.build_basket (set_cell r (fst cl) v)
      = (pre ++ (if py_str_eq v "Y" then [snd cl] else []) ++ post)%list)
    flag_fields /\
  (forall (r : row) (v : pystr),
     FreqItemsets.build_basket (set_cell r OFC_VISIT v) = FreqItemsets.build_basket r) /\
  (forall (r : row) (v : pystr),
     FreqItemsets.build_basket (set_cell r ER_ED_VISIT v) = FreqItemsets.build_basket r).
Proof.
  split; [reflexivity | split; [| split; intros r v; reflexivity]].
  repeat constructor; intro r; simpl fst; simpl snd.
  - split_basket r 3%nat. rewrite <- labeled_item_opt_list. reflexivity.
  - split_basket r 4%nat. rewrite <- labeled_item_opt_list. reflexivity.
  - split_basket r 5%nat. rewrite <- labeled_item_opt_list. reflexivity.
  - split_basket r 6%nat. rewrite <- labeled_item_opt_list. reflexivity.
  - split_basket r 7%nat. rewrite <- labeled_item_opt_list. reflexivity.
  - split_basket r 8%nat. rewrite <- labeled_item_opt_list. reflexivity.
  - split_basket r 9%nat. rewrite <- labeled_item_opt_list. reflexivity.
  - split_basket r 10%nat. rewrite <- labeled_item_opt_list. reflexivity.
Qed.

(** ** Join stage *)

Definition key_count (df : frame) (k : value) : nat :=
  count_occ value_eq_dec (index df) k.

Lemma value_eqb_spec (v1 v2 : value) : value_eqb v1 v2 = true <-> v1 = v2.
Proof. unfold value_eqb. destruct (value_eq_dec v1 v2); split; congruence. Qed.

Lemma matches_length (k : value) (ys : list (value * list value)) :
  length (filter (fun kr => value_eqb k (fst kr)) ys)
  = count_occ value_eq_dec (map fst ys) k.
Proof.
  induction ys as [|[k' v] ys IH]; simpl; [reflexivity |].
  unfold value_eqb. destruct (value_eq_dec k k') as [<-|Hne];
  destruct (value_eq_dec k k) as [_|Hk]; try congruence.
  - simpl. f_equal. exact IH.
  - destruct (value_eq_dec k' k); [congruence | exact IH].
Qed.

(** Each left row is repeated once per matching right row. *)
Lemma index_merge (x y : frame) :
  index (merge x y)
  = flat_map (fun kl => repeat (fst kl) (key_count y (fst kl))) (rows x).
Proof.
  unfold index, merge, key_count, index. simpl.
  induction (rows x) as [|kl xs IH]; simpl; [reflexivity |].
  rewrite map_app, IH. f_equal.
  rewrite map_map. simpl.
  rewrite <- matches_length.
  induction (filter _ (rows y)) as [|kr l IHl]; simpl; [reflexivity | f_equal; exact IHl].
Qed.

Lemma count_occ_repeat_value (v k : value) (n : nat) :
  count_occ value_eq_dec (repeat v n) k = if value_eq_dec v k then n else 0%nat.
Proof.
  induction n as [|n IH]; simpl; [destruct (value_eq_dec v k); reflexivity |].
  rewrite IH. destruct (value_eq_dec v k); reflexivity.
Qed.

(** The inner join multiplies the multiplicities of a key. *)
Lemma key_count_merge (x y : frame) (k : value) :
  key_count (merge x y) k = (key_count x k * key_count y k)%nat.
Proof.
  unfold key_count at 1. rewrite index_merge.
  unfold key_count, index.
  induction (rows x) as [|[k' v] xs IH]; simpl; [reflexivity |].
  rewrite count_occ_app, count_occ_repeat_value, IH. simpl.
  destruct (value_eq_dec k' k) as [<-|Hne]; simpl.
  - destruct (value_eq_dec k' k'); [lia | congruence].
  - destruct (value_eq_dec k' k); [congruence | reflexivity].
Qed.

Lemma In_index_count (df : frame) (k : value) :
  In k (index df) <-> (0 < key_count df k)%nat.
Proof. unfold key_count. apply count_occ_In. Qed.

Lemma find_pos_None (x : string) (l : list string) :
  find_pos x l = None <-> ~ In x l.
Proof.
  induction l as [|y l IH]; simpl; [tauto |].
  destruct (String.eqb_spec x y) as [->|Hne].
  - split; [discriminate | intro H; exfalso; apply H; left; reflexivity].
  - destruct (find_pos x l); split; intro H.
    + discriminate.
    + assert (Some n = None) as E by (apply IH; intro Hin; apply H; right; exact Hin).
      discriminate E.
    + intros [E|Hin]; [congruence | apply IH; assumption].
    + reflexivity.
Qed.

(** ** Claims on the join stage *)

(** C5. [merge_dataframes] on three tables always returns a merged table,
    whose index holds a key exactly when the key is in the index of all
    three tables; joining keys {1,2,3} with keys {2,3,4} leaves {2,3}. *)
Theorem merge_dataframes_inner_join :
  (forall a b c : frame, exists m,
     merge_dataframes [a; b; c] = Some m /\
     forall k, In k (index m) <-> In k (index a) /\ In k (index b) /\ In k (index c)) /\
  option_map index
    (merge_dataframes [keyed_table "A" [1; 2; 3]%Z; keyed_table "B" [2; 3; 4]%Z])
  = Some [VInt 2; VInt 3].
Proof.
  split; [| reflexivity].
  intros a b c. exists (merge (merge a b) c). split; [reflexivity |].
  intro k. rewrite !In_index_count, !key_count_merge.
  split.
  - intro H. repeat split; destruct (key_count a k), (key_count b k), (key_count c k);
      simpl in *; lia.
  - intros [Ha [Hb Hc]]. destruct (key_count a k), (key_count b k), (key_count c k);
      simpl in *; lia.
Qed.

(** C6 (counterexample). A key that is not unique within a table does not
    make the join fail: with key 1 twice in the first table the merge
    returns a table with two rows for key 1. *)
Lemma merge_dataframes_duplicate_key_succeeds :
  option_map index
    (merge_dataframes [keyed_table "A" [1; 1]%Z; keyed_table "B" [1]%Z; keyed_table "C" [1]%Z])
  = Some [VInt 1; VInt 1].
Proof. reflexivity. Qed.

(** C6 (amended). The join never fails on three indexed tables: it returns
    a merged table in which every key occurs (occurrences in the first)
    * (in the second) * (in the third) times, duplicates giving a
    many-to-many join. A table without the [VAERS_ID] column fails before
    the join, in [read_vaers_csv] ([set_index] raises), exactly then. *)
Theorem merge_dataframes_many_to_many :
  (forall a b c : frame, exists m,
     merge_dataframes [a; b; c] = Some m /\
     forall k, key_count m k = (key_count a k * key_count b k * key_count c k)%nat) /\
  (forall t : csv, read_vaers_csv t = None <-> ~ In "VAERS_ID" (header t)).
Proof.
  split.
  - intros a b c. exists (merge (merge a b) c). split; [reflexivity |].
    intro k. rewrite !key_count_merge. reflexivity.
  - intro t. unfold read_vaers_csv, set_index. rewrite <- find_pos_None.
    destruct (find_pos "VAERS_ID" (header t)); split; congruence.
Qed.

(** ** One-hot encoding *)

Lemma insert_sorted_perm (x : string) (l : list string) :
  Permutation (insert_sorted x l) (x :: l).
Proof.
  induction l as [|y l IH]; simpl; [reflexivity |].
  destruct (String.leb x y); [reflexivity |].
  rewrite IH. apply perm_swap.
Qed.

Lemma sort_strings_perm (l : list string) : Permutation (sort_strings l) l.
Proof.
  induction l as [|x l IH]; simpl; [reflexivity |].
  rewrite insert_sorted_perm, IH. reflexivity.
Qed.

Lemma te_columns_NoDup (baskets : list (list string)) : NoDup (te_columns baskets).
Proof.
  unfold te_columns. eapply Permutation_NoDup.
  - symmetry. apply sort_strings_perm.
  - apply NoDup_nodup.
Qed.

Lemma te_columns_In (baskets : list (list string)) (t : string) :
  In t (te_columns baskets) <-> In t (concat baskets).
Proof.
  unfold te_columns. split; intro H.
  - apply (nodup_In string_dec). eapply Permutation_in; [apply sort_strings_perm | exact H].
  - eapply Permutation_in; [symmetry; apply sort_strings_perm |].
    apply (nodup_In string_dec). exact H.
Qed.

Lemma existsb_eqb_In (t : string) (b : list string) :
  existsb (String.eqb t) b = true <-> In t b.
Proof.
  rewrite existsb_exists. split.
  - intros [x [Hx E]]. apply String.eqb_eq in E. subst. exact Hx.
  - intro H. exists t. split; [exact H | apply String.eqb_refl].
Qed.

Lemma decode_row_marks (cols : list string) (f : string -> bool) :
  decode_row cols (map f cols) = filter f cols.
Proof.
  unfold decode_row. induction cols as [|c cols IH]; simpl; [reflexivity |].
  destruct (f c); simpl; rewrite IH; reflexivity.
Qed.

Lemma Forall2_map_self {A B} (f : B -> A) (R : A -> B -> Prop) (l : list B) :
  (forall b, In b l -> R (f b) b) -> Forall2 R (map f l) l.
Proof.
  induction l as [|b l IH]; intro H; simpl; constructor.
  - apply H. left. reflexivity.
  - apply IH. intros b' Hb'. apply H. right. exact Hb'.
Qed.

(** ** Frequent itemsets *)

Lemma Qle_bool_pos_false (m : Q) : 0 < m -> Qle_bool m 0 = false.
Proof.
  intro H. destruct (Qle_bool m 0) eqn:E; [| reflexivity].
  apply Qle_bool_iff in E. lra.
Qed.

Lemma Qle_bool_le_one (m : Q) : m <= 1 -> Qle_bool m 1 = true.
Proof. apply Qle_bool_iff. Qed.

(** ** The two copies of the basket builder *)

(** [build_basket] of [src/cloud_function/main.py] and of
    [src/proj_code_pkg/freq_itemsets.py] agree on every row. *)
Lemma build_basket_copies_agree (r : row) :
  CloudMain.build_basket r = FreqItemsets.build_basket r.
Proof. reflexivity. Qed.

(** ** Claims on encoding and mining *)

(** C8. Encoding a basket list with [build_one_hot_basket_dataset] gives one
    matrix row per basket, in order, and reading each row back (the columns
    marked [True]) gives a duplicate-free list with exactly the tokens of the
    corresponding basket. *)
Theorem one_hot_roundtrip (baskets : list (list string)) :
  let df := build_one_hot_basket_dataset baskets in
  Forall2 (fun r b =>
             NoDup (decode_row (bcolumns df) r) /\
             forall t, In t (decode_row (bcolumns df) r) <-> In t b)
          (brows df) baskets.
Proof.
  simpl. unfold te_transform.
  apply Forall2_map_self. intros b Hb.
  rewrite decode_row_marks. split.
  - apply NoDup_filter, te_columns_NoDup.
  - intro t. rewrite filter_In, existsb_eqb_In, te_columns_In.
    split; [tauto |]. intro Ht. split; [| exact Ht].
    apply in_concat. exists b. split; assumption.
Qed.

(** C9. For one occurrence matrix and thresholds [0 < minsup1 < minsup2 <= 1],
    [fpgrowth] returns a result for both, and every itemset (with its
    support) returned for [minsup2] is also returned for [minsup1]. *)
Theorem fpgrowth_monotone (df : bool_frame) (minsup1 minsup2 : Q) :
  0 < minsup1 -> minsup1 < minsup2 -> minsup2 <= 1 ->
  exists S1 S2, fpgrowth df minsup1 = Some S1 /\ fpgrowth df minsup2 = Some S2 /\
                incl S2 S1.
Proof.
  intros H1 H12 H2. unfold fpgrowth.
  rewrite !Qle_bool_pos_false by lra.
  rewrite !Qle_bool_le_one by lra. simpl.
  eexists; eexists; split; [reflexivity | split; [reflexivity |]].
  intros x Hx. apply in_map_iff in Hx. destruct Hx as [s [<- Hs]].
  apply (in_map (fun s => (support df s, s))). apply filter_In in Hs. destruct Hs as [Hsub Hp].
  apply filter_In. split; [exact Hsub |].
  apply andb_true_iff in Hp. destruct Hp as [Hne Hsup].
  apply andb_true_iff. split; [exact Hne |].
  apply Qle_bool_iff in Hsup. apply Qle_bool_iff. lra.
Qed.

(** Witness of C9 on the spec's example baskets, with thresholds 1/2 and
    2/3. *)
Lemma fpgrowth_monotone_witness :
  0 < 1 # 2 /\ 1 # 2 < 2 # 3 /\ 2 # 3 <= 1 /\
  exists S1 S2,
    fpgrowth (build_one_hot_basket_dataset example_baskets) (1 # 2) = Some S1 /\
    fpgrowth (build_one_hot_basket_dataset example_baskets) (2 # 3) = Some S2 /\
    incl S2 S1.
Proof.
  split; [reflexivity | split; [reflexivity | split; [discriminate |]]].
  apply fpgrowth_monotone; [reflexivity | reflexivity | discriminate].
Defined.

(** * Further properties of the pipeline *)

(** ** Basket builder *)

Lemma opt_list_length (o : pystr) : (length (opt_list o) <= 1)%nat.
Proof. destruct o; simpl; lia. Qed.

Lemma concat_length_le {A} (L : list (list A)) :
  Forall (fun l => length l <= 1)%nat L -> (length (concat L) <= length L)%nat.
Proof.
  induction 1 as [|l L Hl _ IH]; simpl; [lia |]. rewrite length_app. lia.
Qed.

(** The basket starts with the [STATE] value (when present), then the age
    group and the sex group. *)
Lemma build_basket_head (r : row) :
  FreqItemsets.build_basket r
  = (opt_list (cell r STATE)
     ++ FreqItemsets.convert_to_age_group (AGE_YRS r)
     :: FreqItemsets.convert_to_sex_group (cell r SEX)
     :: concat (skipn 3 (map snd (basket_fields r))))%list.
Proof. rewrite build_basket_fields. reflexivity. Qed.

(** Every basket holds between 2 and 17 tokens, among them the row's age
    group and its sex group. *)
Theorem build_basket_length_bounds (r : row) :
  (2 <= length (FreqItemsets.build_basket r))%nat /\
  (length (FreqItemsets.build_basket r) <= 17)%nat /\
  In (FreqItemsets.convert_to_age_group (AGE_YRS r)) (FreqItemsets.build_basket r) /\
  In (FreqItemsets.convert_to_sex_group (cell r SEX)) (FreqItemsets.build_basket r).
Proof.
  split; [| split; [| split]].
  - rewrite build_basket_head, length_app. simpl. lia.
  - rewrite build_basket_fields.
    change 17%nat with (length (map snd (basket_fields r))).
    apply concat_length_le.
    cbn [basket_fields map snd].
    repeat (apply Forall_cons; [first [apply opt_list_length | simpl; lia] |]).
    apply Forall_nil.
  - rewrite build_basket_head. apply in_or_app. right. left. reflexivity.
  - rewrite build_basket_head. apply in_or_app. right. right. left. reflexivity.
Qed.

(** Every non-missing value of a pass-through column ([STATE], [VAX_NAME],
    [SYMPTOM1] .. [SYMPTOM5]) is a token of the basket, verbatim. *)
Theorem build_basket_keeps_passthrough_values (r : row) :
  Forall (fun c => forall s, cell r c = Some s -> In s (FreqItemsets.build_basket r))
    [STATE; VAX_NAME; SYMPTOM1; SYMPTOM2; SYMPTOM3; SYMPTOM4; SYMPTOM5].
Proof.
  repeat constructor; intros s Hs; rewrite build_basket_fields; apply in_concat;
  [exists (opt_list (cell r STATE)) | exists (opt_list (cell r VAX_NAME))
  | exists (opt_list (cell r SYMPTOM1)) | exists (opt_list (cell r SYMPTOM2))
  | exists (opt_list (cell r SYMPTOM3)) | exists (opt_list (cell r SYMPTOM4))
  | exists (opt_list (cell r SYMPTOM5))];
  (split; [simpl; tauto | rewrite Hs; left; reflexivity]).
Qed.

(** On non-missing ages [convert_to_age_group] is monotone: an older age
    never gets an earlier age group. A non-missing age gets ["Age 0-2"]
    exactly when it is below 3, negative ones included, and ["Age 79-older"]
    exactly when it is at least 79; the missing age (NaN) also gets
    ["Age 79-older"]. *)
Theorem convert_to_age_group_monotone :
  (forall a b : Q, a <= b ->
     (age_group_rank (FreqItemsets.convert_to_age_group (PNum a))
      <= age_group_rank (FreqItemsets.convert_to_age_group (PNum b)))%nat) /\
  (forall a : Q, a < 3 <-> FreqItemsets.convert_to_age_group (PNum a) = "Age 0-2") /\
  (forall a : Q, 79 <= a <-> FreqItemsets.convert_to_age_group (PNum a) = "Age 79-older") /\
  FreqItemsets.convert_to_age_group PNaN = "Age 79-older".
Proof.
  split; [| split; [| split; [| reflexivity]]].
  - intros a b Hab. unfold FreqItemsets.convert_to_age_group.
    repeat (match goal with
            | |- context [py_lt (PNum ?x) ?c] =>
                let E := fresh "E" in
                destruct (py_lt (PNum x) c) eqn:E;
                [apply py_lt_num_true in E | apply py_lt_num_false in E]
            end);
    first [vm_compute; lia | exfalso; lra].
  - intro a. unfold FreqItemsets.convert_to_age_group.
    destruct (py_lt (PNum a) 3) eqn:E;
      [apply py_lt_num_true in E | apply py_lt_num_false in E].
    + split; [reflexivity | intros _; exact E].
    + split; [intro; exfalso; lra |].
      repeat (match goal with
              | |- context [py_lt (PNum a) ?c] => destruct (py_lt (PNum a) c)
              end); discriminate.
  - intro a. unfold FreqItemsets.convert_to_age_group.
    repeat (match goal with
            | |- context [py_lt (PNum a) ?c] =>
                let E := fresh "E" in
                destruct (py_lt (PNum a) c) eqn:E;
                [apply py_lt_num_true in E | apply py_lt_num_false in E]
            end);
    (split; [intro; first [exfalso; lra | reflexivity] | intro H; first [discriminate H | assumption]]).
Qed.

(** ** Join stage *)

Lemma key_count_fold_merge (ds : list frame) (acc : frame) (k : value) :
  key_count (fold_left merge ds acc) k
  = (key_count acc k * fold_right (fun t p => key_count t k * p) 1 ds)%nat.
Proof.
  revert acc. induction ds as [|d ds IH]; intro acc; simpl; [lia |].
  rewrite IH, key_count_merge. rewrite Nat.mul_assoc. reflexivity.
Qed.

(** [merge_dataframes] raises on an empty list; on any non-empty list of
    tables it returns a merged table in which every key occurs the product
    of its numbers of occurrences in the tables (so a key missing from one
    table is dropped). *)
Theorem merge_dataframes_key_count_product :
  merge_dataframes [] = None /\
  forall (d : frame) (ds : list frame), exists m,
    merge_dataframes (d :: ds) = Some m /\
    forall k, key_count m k = fold_right (fun t p => key_count t k * p)%nat 1%nat (d :: ds).
Proof.
  split; [reflexivity |].
  intros d ds. exists (fold_left merge ds d). split; [reflexivity |].
  intro k. rewrite key_count_fold_merge. reflexivity.
Qed.

Lemma In_rows_merge (x y : frame) (k : value) (cells : list value) :
  In (k, cells) (rows (merge x y))
  <-> exists c1 c2, In (k, c1) (rows x) /\ In (k, c2) (rows y) /\ cells = app c1 c2.
Proof.
  unfold merge. simpl. rewrite in_flat_map. split.
  - intros [[k1 c1] [H1 Hin]]. apply in_map_iff in Hin.
    destruct Hin as [[k2 c2] [E Hf]]. apply filter_In in Hf.
    destruct Hf as [H2 Heq]. apply value_eqb_spec in Heq. simpl in *.
    injection E as <- <-. subst k2. exists c1, c2. tauto.
  - intros [c1 [c2 [H1 [H2 ->]]]]. exists (k, c1). split; [exact H1 |].
    apply in_map_iff. exists (k, c2). split; [reflexivity |].
    apply filter_In. split; [exact H2 | apply value_eqb_spec; reflexivity].
Qed.

(** The rows of the three-table join are exactly the combinations of one
    row of each table with the same key, their cells concatenated in table
    order: the join neither drops nor invents a combination. *)
Theorem merge_dataframes_rows_provenance (a b c : frame) :
  exists m, merge_dataframes [a; b; c] = Some m /\
  forall k cells, In (k, cells) (rows m) <->
    exists c1 c2 c3, In (k, c1) (rows a) /\ In (k, c2) (rows b) /\
                     In (k, c3) (rows c) /\ cells = app c1 (app c2 c3).
Proof.
  exists (merge (merge a b) c). split; [reflexivity |].
  intros k cells. rewrite In_rows_merge. split.
  - intros [c12 [c3 [H12 [H3 ->]]]]. apply In_rows_merge in H12.
    destruct H12 as [c1 [c2 [H1 [H2 ->]]]].
    exists c1, c2, c3. rewrite app_assoc. tauto.
  - intros [c1 [c2 [c3 [H1 [H2 [H3 ->]]]]]].
    exists (app c1 c2), c3. rewrite app_assoc. repeat split; try assumption.
    apply In_rows_merge. exists c1, c2. tauto.
Qed.

(** ** One-hot encoding *)

Lemma leb_false_flip (x y : string) : String.leb x y = false -> String.leb y x = true.
Proof. intro H. destruct (String.leb_total x y) as [E|E]; [congruence | exact E]. Qed.

Lemma insert_sorted_hd (x y : string) (l : list string) :
  HdRel (fun a b => String.leb a b = true) y l -> String.leb y x = true ->
  HdRel (fun a b => String.leb a b = true) y (insert_sorted x l).
Proof.
  intros H Hyx. destruct l as [|z l]; simpl; [constructor; exact Hyx |].
  destruct (String.leb x z); constructor; [exact Hyx | inversion H; assumption].
Qed.

Lemma insert_sorted_sorted (x : string) (l : list string) :
  Sorted (fun a b => String.leb a b = true) l ->
  Sorted (fun a b => String.leb a b = true) (insert_sorted x l).
Proof.
  induction l as [|y l IH]; intro H; simpl; [repeat constructor |].
  destruct (String.leb x y) eqn:E.
  - constructor; [exact H | constructor; exact E].
  - inversion H as [|? ? Hl Hhd]; subst. constructor; [apply IH; exact Hl |].
    apply insert_sorted_hd; [exact Hhd | apply leb_false_flip; exact E].
Qed.

Lemma sort_strings_sorted (l : list string) :
  Sorted (fun a b => String.leb a b = true) (sort_strings l).
Proof.
  induction l as [|x l IH]; simpl; [constructor | apply insert_sorted_sorted; exact IH].
Qed.

(** The columns of the one-hot frame are the distinct tokens of all
    baskets, each once, in ascending string order. *)
Theorem one_hot_columns_sorted_distinct (baskets : list (list string)) :
  let cols := bcolumns (build_one_hot_basket_dataset baskets) in
  Sorted (fun a b => String.leb a b = true) cols /\ NoDup cols /\
  forall t, In t cols <-> exists b, In b baskets /\ In t b.
Proof.
  simpl. split; [apply sort_strings_sorted | split; [apply te_columns_NoDup |]].
  intro t. rewrite te_columns_In, in_concat. split; intros [b [H1 H2]]; exists b; tauto.
Qed.

Lemma combine_map_self {A B} (f : A -> B) (l : list A) :
  combine l (map f l) = map (fun x => (x, f x)) l.
Proof. induction l as [|x l IH]; simpl; [reflexivity | rewrite IH; reflexivity]. Qed.

(** The cell of column [c] in the encoded row of basket [b]. *)
Lemma row_has_encoded (cols b : list string) (c : string) :
  row_has cols (map (fun c' => existsb (String.eqb c') b) cols) c = true
  <-> In c cols /\ In c b.
Proof.
  unfold row_has. rewrite combine_map_self, existsb_exists. split.
  - intros [cv [Hin E]]. apply in_map_iff in Hin. destruct Hin as [c' [<- Hc']].
    simpl in E. apply andb_true_iff in E. destruct E as [E1 E2].
    apply String.eqb_eq in E1. subst c'. split; [exact Hc' | apply existsb_eqb_In; exact E2].
  - intros [Hc Hb]. exists (c, existsb (String.eqb c) b). split.
    + apply in_map_iff. exists c. split; [reflexivity | exact Hc].
    + simpl. rewrite String.eqb_refl. apply existsb_eqb_In. exact Hb.
Qed.

(** No column of the one-hot frame is empty: every column is marked in the
    row of some basket. *)
Theorem one_hot_every_column_used (baskets : list (list string)) :
  let df := build_one_hot_basket_dataset baskets in
  Forall (fun c => exists r, In r (brows df) /\ row_has (bcolumns df) r c = true)
    (bcolumns df).
Proof.
  simpl. apply Forall_forall. intros c Hc.
  pose proof Hc as Hc'. apply te_columns_In, in_concat in Hc'.
  destruct Hc' as [b [Hb Hcb]].
  exists (map (fun c' => existsb (String.eqb c') b) (te_columns baskets)). split.
  - unfold te_transform. apply in_map_iff. exists b. tauto.
  - apply row_has_encoded. tauto.
Qed.

Lemma length_filter_map {A B} (p : B -> bool) (f : A -> B) (l : list A) :
  length (filter p (map f l)) = length (filter (fun x => p (f x)) l).
Proof.
  induction l as [|x l IH]; simpl; [reflexivity |].
  destruct (p (f x)); simpl; rewrite IH; reflexivity.
Qed.

(** Mining the encoded frame counts baskets: for every itemset, the number
    of rows of [build_one_hot_basket_dataset baskets] having all its columns
    is the number of baskets containing all its tokens. *)
Theorem one_hot_support_counts_baskets (baskets : list (list string)) (s : list string) :
  support_count (build_one_hot_basket_dataset baskets) s
  = length (filter (fun b => forallb (fun c => existsb (String.eqb c) b) s) baskets).
Proof.
  unfold support_count. simpl. unfold te_transform.
  rewrite length_filter_map. f_equal. apply filter_ext_in. intros b Hb.
  apply Bool.eq_iff_eq_true. rewrite !forallb_forall.
  split; intros H c Hc; specialize (H c Hc).
  - apply row_has_encoded in H. apply existsb_eqb_In. tauto.
  - apply row_has_encoded. apply existsb_eqb_In in H. split; [| exact H].
    apply te_columns_In, in_concat. exists b. tauto.
Qed.

(** ** Frequent itemsets *)

Lemma Q_of_nat_nonneg (n : nat) : 0 <= inject_Z (Z.of_nat n).
Proof. change 0 with (inject_Z 0). rewrite <- Zle_Qle. lia. Qed.

Lemma ratio_mono (c1 c2 n : nat) :
  (c1 <= c2)%nat ->
  inject_Z (Z.of_nat c1) / inject_Z (Z.of_nat n) <= inject_Z (Z.of_nat c2) / inject_Z (Z.of_nat n).
Proof.
  intro H. unfold Qdiv. apply Qmult_le_compat_r.
  - rewrite <- Zle_Qle. lia.
  - apply Qinv_le_0_compat, Q_of_nat_nonneg.
Qed.

Lemma length_filter_weaker {A} (f g : A -> bool) (l : list A) :
  (forall x, f x = true -> g x = true) ->
  (length (filter f l) <= length (filter g l))%nat.
Proof.
  intro H. induction l as [|x l IH]; simpl; [lia |].
  destruct (f x) eqn:E; [rewrite (H x E); simpl; lia |].
  destruct (g x); simpl; lia.
Qed.

(** An itemset's support is at most that of any of its subsets. *)
Lemma support_antimono (df : bool_frame) (s t : list string) :
  incl t s -> support df s <= support df t.
Proof.
  intro H. apply ratio_mono, length_filter_weaker.
  intros r Hr. rewrite forallb_forall in *. intros c Hc. apply Hr, H, Hc.
Qed.

Lemma In_fpgrowth (df : bool_frame) (m : Q) (S : list (Q * list string)) (p : Q * list string) :
  fpgrowth df m = Some S -> In p S ->
  fst p = support df (snd p) /\ snd p <> [] /\ m <= support df (snd p) /\
  In (snd p) (subsequences (bcolumns df)).
Proof.
  unfold fpgrowth. destruct (Qle_bool m 0 || negb (Qle_bool m 1)); [discriminate |].
  intros E Hp. injection E as <-. apply in_map_iff in Hp.
  destruct Hp as [s [<- Hs]]. apply filter_In in Hs. destruct Hs as [Hsub Hp].
  apply andb_true_iff in Hp. destruct Hp as [Hne Hsup]. simpl.
  split; [reflexivity |]. split; [destruct s; simpl in Hne; congruence |].
  split; [apply Qle_bool_iff; exact Hsup | exact Hsub].
Qed.

(** The result of [fpgrowth] is closed under non-empty subsets: with an
    itemset it returns every non-empty set of columns it contains, with its
    support. *)
Theorem fpgrowth_downward_closed (df : bool_frame) (m : Q) (S : list (Q * list string))
    (q : Q) (s t : list string) :
  fpgrowth df m = Some S -> In (q, s) S ->
  In t (subsequences (bcolumns df)) -> t <> [] -> incl t s ->
  In (support df t, t) S.
Proof.
  intros E Hp Ht Hne Hincl.
  destruct (In_fpgrowth df m S (q, s) E Hp) as [_ [_ [Hms _]]]. simpl in *.
  unfold fpgrowth in E. destruct (Qle_bool m 0 || negb (Qle_bool m 1)); [discriminate |].
  injection E as <-. apply (in_map (fun s => (support df s, s))).
  apply filter_In. split; [exact Ht |].
  apply andb_true_iff. split; [destruct t; [congruence | reflexivity] |].
  apply Qle_bool_iff. eapply Qle_trans; [exact Hms | apply support_antimono; exact Hincl].
Qed.

(** Witness of [fpgrowth_downward_closed]: at threshold 1/2 the example
    yields {CA, Died, Female}, hence {Died, Female}. *)
Lemma fpgrowth_downward_closed_witness :
  exists S,
    fpgrowth (build_one_hot_basket_dataset example_baskets) (1 # 2) = Some S /\
    In (2 # 3, ["CA"; "Died"; "Female"]) S /\
    In ["Died"; "Female"] (subsequences (bcolumns (build_one_hot_basket_dataset example_baskets))) /\
    ["Died"; "Female"] <> [] /\ incl ["Died"; "Female"] ["CA"; "Died"; "Female"] /\
    In (support (build_one_hot_basket_dataset example_baskets) ["Died"; "Female"],
        ["Died"; "Female"]) S.
Proof.
  exists [(2 # 3, ["CA"; "Died"; "Female"]); (2 # 3, ["CA"; "Died"]);
          (2 # 3, ["CA"; "Female"]); (3 # 3, ["CA"]);
          (2 # 3, ["Died"; "Female"]); (2 # 3, ["Died"]); (2 # 3, ["Female"])].
  split; [vm_compute; reflexivity |].
  split; [simpl; left; reflexivity |].
  split; [vm_compute; tauto |].
  split; [discriminate |].
  split; [intros x Hx; simpl in *; tauto |].
  apply (fpgrowth_downward_closed _ (1 # 2) _ (2 # 3) ["CA"; "Died"; "Female"]).
  - vm_compute. reflexivity.
  - simpl. left. reflexivity.
  - vm_compute. tauto.
  - discriminate.
  - intros x Hx. simpl in *. tauto.
Defined.
